(** * Wafer slip dynamics (FMU/wafer_slip_model.py)

    A shallow embedding of the class [WaferSlipDynamics] and the properties
    of its stepping interface.

    Python floats are read as real numbers, the reading the specification
    uses ("all real-valued inputs"): [math.pi] is [PI], [abs] is [Rabs],
    and a float literal is the decimal it denotes.  Rounding, infinities
    and NaN of binary64 are outside this model.  The one arithmetic
    exception a float expression of the source can raise, division by
    zero, is modelled: [pydiv] raises [ZeroDivisionError]. *)

From Stdlib Require Import Reals Lra Psatz ZArith Bool List.
From Stdlib Require Import Sorting.Sorted.
Import ListNotations.

Open Scope R_scope.

(** ** Comparisons of floats, as booleans *)

Definition Rgtb (x y : R) : bool := if Rgt_dec x y then true else false.

Notation "x >? y" := (Rgtb x y) : R_scope.

(** ** The instance: the attributes assigned in [__init__] *)

Record WaferSlipDynamics : Type := mkWaferSlipDynamics {
  (* inputs *)
  angular_acceleration : R;
  vacuum_pressure : R;
  wafer_type : Z;
  (* outputs *)
  slip_factor : R;
  max_safe_acceleration : R;
  is_slipping : bool;
  (* parameters *)
  mu_friction : R;
  safety_margin : R;
  (* internal state *)
  wafer_mass : R;
  wafer_radius : R;
  chuck_area : R
}.

(** Attribute assignment [self.f = v], one function per attribute. *)

Definition set_angular_acceleration (v : R) (s : WaferSlipDynamics) :=
  mkWaferSlipDynamics v (vacuum_pressure s) (wafer_type s)
    (slip_factor s) (max_safe_acceleration s) (is_slipping s)
    (mu_friction s) (safety_margin s)
    (wafer_mass s) (wafer_radius s) (chuck_area s).

Definition set_vacuum_pressure (v : R) (s : WaferSlipDynamics) :=
  mkWaferSlipDynamics (angular_acceleration s) v (wafer_type s)
    (slip_factor s) (max_safe_acceleration s) (is_slipping s)
    (mu_friction s) (safety_margin s)
    (wafer_mass s) (wafer_radius s) (chuck_area s).

Definition set_wafer_type (v : Z) (s : WaferSlipDynamics) :=
  mkWaferSlipDynamics (angular_acceleration s) (vacuum_pressure s) v
    (slip_factor s) (max_safe_acceleration s) (is_slipping s)
    (mu_friction s) (safety_margin s)
    (wafer_mass s) (wafer_radius s) (chuck_area s).

Definition set_slip_factor (v : R) (s : WaferSlipDynamics) :=
  mkWaferSlipDynamics (angular_acceleration s) (vacuum_pressure s) (wafer_type s)
    v (max_safe_acceleration s) (is_slipping s)
    (mu_friction s) (safety_margin s)
    (wafer_mass s) (wafer_radius s) (chuck_area s).

Definition set_max_safe_acceleration (v : R) (s : WaferSlipDynamics) :=
  mkWaferSlipDynamics (angular_acceleration s) (vacuum_pressure s) (wafer_type s)
    (slip_factor s) v (is_slipping s)
    (mu_friction s) (safety_margin s)
    (wafer_mass s) (wafer_radius s) (chuck_area s).

Definition set_is_slipping (v : bool) (s : WaferSlipDynamics) :=
  mkWaferSlipDynamics (angular_acceleration s) (vacuum_pressure s) (wafer_type s)
    (slip_factor s) (max_safe_acceleration s) v
    (mu_friction s) (safety_margin s)
    (wafer_mass s) (wafer_radius s) (chuck_area s).

Definition set_mu_friction (v : R) (s : WaferSlipDynamics) :=
  mkWaferSlipDynamics (angular_acceleration s) (vacuum_pressure s) (wafer_type s)
    (slip_factor s) (max_safe_acceleration s) (is_slipping s)
    v (safety_margin s)
    (wafer_mass s) (wafer_radius s) (chuck_area s).

Definition set_safety_margin (v : R) (s : WaferSlipDynamics) :=
  mkWaferSlipDynamics (angular_acceleration s) (vacuum_pressure s) (wafer_type s)
    (slip_factor s) (max_safe_acceleration s) (is_slipping s)
    (mu_friction s) v
    (wafer_mass s) (wafer_radius s) (chuck_area s).

Definition set_wafer_mass (v : R) (s : WaferSlipDynamics) :=
  mkWaferSlipDynamics (angular_acceleration s) (vacuum_pressure s) (wafer_type s)
    (slip_factor s) (max_safe_acceleration s) (is_slipping s)
    (mu_friction s) (safety_margin s)
    v (wafer_radius s) (chuck_area s).

Definition set_wafer_radius (v : R) (s : WaferSlipDynamics) :=
  mkWaferSlipDynamics (angular_acceleration s) (vacuum_pressure s) (wafer_type s)
    (slip_factor s) (max_safe_acceleration s) (is_slipping s)
    (mu_friction s) (safety_margin s)
    (wafer_mass s) v (chuck_area s).

Definition set_chuck_area (v : R) (s : WaferSlipDynamics) :=
  mkWaferSlipDynamics (angular_acceleration s) (vacuum_pressure s) (wafer_type s)
    (slip_factor s) (max_safe_acceleration s) (is_slipping s)
    (mu_friction s) (safety_margin s)
    (wafer_mass s) (wafer_radius s) v.

(** ** Methods: a state and exception monad over the instance

    A method body reads and assigns attributes of [self] and may raise.
    An exception leaves the assignments made before it in place, as in
    Python, so the instance is returned beside the outcome. *)

Inductive exn : Type :=
| ZeroDivisionError.

Inductive outcome (A : Type) : Type :=
| Return (a : A)
| Raise (e : exn).

Arguments Return {A} a.
Arguments Raise {A} e.

Definition M (A : Type) : Type := WaferSlipDynamics -> outcome A * WaferSlipDynamics.

Definition ret {A} (a : A) : M A := fun s => (Return a, s).

Definition bind {A B} (c : M A) (k : A -> M B) : M B :=
  fun s =>
    match c s with
    | (Return a, s') => k a s'
    | (Raise e, s') => (Raise e, s')
    end.

Definition raise {A} (e : exn) : M A := fun s => (Raise e, s).

Definition read {A} (f : WaferSlipDynamics -> A) : M A := fun s => (Return (f s), s).

Definition assign (upd : WaferSlipDynamics -> WaferSlipDynamics) : M unit :=
  fun s => (Return tt, upd s).

Notation "x <- c ;; k" := (bind c (fun x => k))
  (at level 61, c at next level, right associativity).
Notation "c ;; k" := (bind c (fun _ => k))
  (at level 61, right associativity).

(** Float division [x / y]: Python raises when the divisor is zero. *)

Definition pydiv (x y : R) : M R :=
  if Req_dec_T y 0 then raise ZeroDivisionError else ret (x / y).

(** ** [_update_wafer_properties] *)

Definition _update_wafer_properties : M unit :=
  let chuck_radius := 0.030 in
  assign (set_chuck_area (PI * (chuck_radius ^ 2))) ;;
  let wafer_density := 2330 in
  let wafer_thickness := 0.5 in
  ty <- read wafer_type ;;
  if (ty =? 1)%Z then
    assign (set_wafer_mass (wafer_density * (PI * (0.150 ^ 2) * wafer_thickness * 1e-3))) ;;
    assign (set_wafer_radius 0.150)
  else if (ty =? 2)%Z then
    assign (set_wafer_mass (wafer_density * (PI * (0.100 ^ 2) * wafer_thickness * 1e-3))) ;;
    assign (set_wafer_radius 0.100)
  else if (ty =? 3)%Z then
    assign (set_wafer_mass (wafer_density * (PI * (0.075 ^ 2) * wafer_thickness * 1e-3))) ;;
    assign (set_wafer_radius 0.075)
  else
    assign (set_wafer_mass (wafer_density * (PI * (0.150 ^ 2) * wafer_thickness * 1e-3))) ;;
    assign (set_wafer_radius 0.150).

(** ** [__init__]: the attribute defaults, then the resolver.
    The calls to [register_variable] only declare the interface. *)

Definition defaults : WaferSlipDynamics :=
  {| angular_acceleration := 0.0;
     vacuum_pressure := 0.0;
     wafer_type := 1;
     slip_factor := 0.0;
     max_safe_acceleration := 0.0;
     is_slipping := false;
     mu_friction := 0.6;
     safety_margin := 0.85;
     wafer_mass := 0.125;
     wafer_radius := 0.150;
     chuck_area := 0.0707 |}.

Definition __init__ : WaferSlipDynamics := snd (_update_wafer_properties defaults).

(** ** [do_step] *)

Definition do_step (current_time step_size : R) : M bool :=
  _update_wafer_properties ;;
  p <- read vacuum_pressure ;;
  let pressure_diff := Rabs p in
  mu <- read mu_friction ;;
  area <- read chuck_area ;;
  let friction_force := mu * (pressure_diff * area) in
  mass <- read wafer_mass ;;
  radius <- read wafer_radius ;;
  a <- read angular_acceleration ;;
  let inertial_force := mass * radius * Rabs a in
  (if friction_force >? 0.001 then
     q <- pydiv inertial_force friction_force ;;
     assign (set_slip_factor q)
   else
     assign (set_slip_factor 999.0)) ;;
  mass <- read wafer_mass ;;
  radius <- read wafer_radius ;;
  (if (mass >? 0) && (radius >? 0) then
     q <- pydiv friction_force (mass * radius) ;;
     assign (set_max_safe_acceleration q)
   else
     assign (set_max_safe_acceleration 0.0)) ;;
  sf <- read slip_factor ;;
  margin <- read safety_margin ;;
  assign (set_is_slipping (sf >? margin)) ;;
  ret true.

(** ** The lifecycle methods *)

Definition setup_experiment (start_time : R) (stop_time tolerance : option R) : M bool :=
  assign (set_slip_factor 0.0) ;;
  assign (set_is_slipping false) ;;
  ret true.

Definition enter_initialization_mode : M bool := ret true.

Definition exit_initialization_mode : M bool := ret true.

Definition terminate : M bool := ret true.

Definition reset : M bool :=
  assign (set_slip_factor 0.0) ;;
  assign (set_is_slipping false) ;;
  ret true.

(** ** What an orchestrator does with an instance

    The orchestrator writes inputs and parameters through the registered
    variables and calls the methods, in the order it chooses. *)

Inductive call : Type :=
| SetAngularAcceleration (v : R)
| SetVacuumPressure (v : R)
| SetWaferType (v : Z)
| SetMuFriction (v : R)
| SetSafetyMargin (v : R)
| SetupExperiment (start_time : R) (stop_time tolerance : option R)
| EnterInitializationMode
| ExitInitializationMode
| DoStep (current_time step_size : R)
| Terminate
| Reset.

Definition exec (c : call) : M bool :=
  match c with
  | SetAngularAcceleration v => assign (set_angular_acceleration v) ;; ret true
  | SetVacuumPressure v => assign (set_vacuum_pressure v) ;; ret true
  | SetWaferType v => assign (set_wafer_type v) ;; ret true
  | SetMuFriction v => assign (set_mu_friction v) ;; ret true
  | SetSafetyMargin v => assign (set_safety_margin v) ;; ret true
  | SetupExperiment t0 t1 tol => setup_experiment t0 t1 tol
  | EnterInitializationMode => enter_initialization_mode
  | ExitInitializationMode => exit_initialization_mode
  | DoStep t h => do_step t h
  | Terminate => terminate
  | Reset => reset
  end.

(** A sequence of calls; it stops at the first exception. *)

Fixpoint run (cs : list call) : M unit :=
  match cs with
  | [] => ret tt
  | c :: cs' => exec c ;; run cs'
  end.

(** ** The lifecycle the specification describes

    The source keeps no lifecycle phase.  The phase below follows the
    wording of the specification (section 4.2) and is computed from the
    calls made so far; it is used only to say which histories the
    specification regards as "not Running". *)

Inductive phase : Type :=
| Instantiated
| ExperimentConfigured
| InitializationMode
| Running
| Terminated.

Definition spec_next (ph : phase) (c : call) : option phase :=
  match c, ph with
  | SetupExperiment _ _ _, Instantiated => Some ExperimentConfigured
  | EnterInitializationMode, ExperimentConfigured => Some InitializationMode
  | ExitInitializationMode, InitializationMode => Some Running
  | DoStep _ _, Running => Some Running
  | Terminate, Running => Some Terminated
  | Reset, Running => Some Instantiated
  | Reset, Terminated => Some Instantiated
  | SetAngularAcceleration _, _ => Some ph
  | SetVacuumPressure _, _ => Some ph
  | SetWaferType _, _ => Some ph
  | SetMuFriction _, _ => Some ph
  | SetSafetyMargin _, _ => Some ph
  | _, _ => None
  end.

(** [None]: the specification calls the history an ordering error. *)

Fixpoint spec_phase (ph : phase) (cs : list call) : option phase :=
  match cs with
  | [] => Some ph
  | c :: cs' =>
      match spec_next ph c with
      | Some ph' => spec_phase ph' cs'
      | None => None
      end
  end.

(** ** Closed forms used in the statements *)

(** The mass the resolver assigns for a wafer of radius [r]. *)

Definition disc_mass (r : R) : R := 2330 * (PI * (r ^ 2) * 0.5 * 1e-3).

Definition resolved_radius (ty : Z) : R :=
  if (ty =? 1)%Z then 0.150
  else if (ty =? 2)%Z then 0.100
  else if (ty =? 3)%Z then 0.075
  else 0.150.

Definition resolved_mass (ty : Z) : R := disc_mass (resolved_radius ty).

Definition resolved_area : R := PI * (0.030 ^ 2).

(** The instance after the resolver ran. *)

Definition resolved (s : WaferSlipDynamics) : WaferSlipDynamics :=
  set_wafer_radius (resolved_radius (wafer_type s))
    (set_wafer_mass (resolved_mass (wafer_type s))
       (set_chuck_area resolved_area s)).

Definition friction_of (s : WaferSlipDynamics) : R :=
  mu_friction s * (Rabs (vacuum_pressure s) * resolved_area).

Definition inertial_of (s : WaferSlipDynamics) : R :=
  resolved_mass (wafer_type s) * resolved_radius (wafer_type s)
  * Rabs (angular_acceleration s).

Definition slip_of (s : WaferSlipDynamics) : R :=
  if Rgt_dec (friction_of s) 0.001 then inertial_of s / friction_of s else 999.0.

Definition max_safe_of (s : WaferSlipDynamics) : R :=
  friction_of s / (resolved_mass (wafer_type s) * resolved_radius (wafer_type s)).

(** The instance after a step, in closed form. *)

Definition stepped (s : WaferSlipDynamics) : WaferSlipDynamics :=
  set_is_slipping (slip_of s >? safety_margin s)
    (set_max_safe_acceleration (max_safe_of s)
       (set_slip_factor (slip_of s) (resolved s))).

(** ** Frames *)

(** Everything but the two outputs [slip_factor] and [is_slipping]. *)

Definition same_but_slip (s s' : WaferSlipDynamics) : Prop :=
  angular_acceleration s' = angular_acceleration s /\
  vacuum_pressure s' = vacuum_pressure s /\
  wafer_type s' = wafer_type s /\
  mu_friction s' = mu_friction s /\
  safety_margin s' = safety_margin s /\
  max_safe_acceleration s' = max_safe_acceleration s /\
  wafer_mass s' = wafer_mass s /\
  wafer_radius s' = wafer_radius s /\
  chuck_area s' = chuck_area s.

(** Everything but the derived [wafer_mass], [wafer_radius], [chuck_area]. *)

Definition same_but_derived (s s' : WaferSlipDynamics) : Prop :=
  angular_acceleration s' = angular_acceleration s /\
  vacuum_pressure s' = vacuum_pressure s /\
  wafer_type s' = wafer_type s /\
  slip_factor s' = slip_factor s /\
  max_safe_acceleration s' = max_safe_acceleration s /\
  is_slipping s' = is_slipping s /\
  mu_friction s' = mu_friction s /\
  safety_margin s' = safety_margin s.

(** ** Concrete instances

    A fresh instance on which the orchestrator has set the three inputs. *)

Definition scenario (a p : R) (ty : Z) : WaferSlipDynamics :=
  set_angular_acceleration a (set_vacuum_pressure p (set_wafer_type ty __init__)).

(** ** The drivers of FMU/test_fmu.py

    The scripts drive the model through fmpy: [instantiate] constructs the
    instance, [setReal] and [setInteger] assign a registered variable,
    [doStep] calls [do_step], [getReal] and [getBoolean] read an attribute.
    Printing and plotting are left out; what the scripts print or plot is
    what the definitions below return. *)

(** [test_slip_dynamics]: three scenarios on one instance.  It returns the
    values read after each step: slip factor, maximum safe acceleration
    and alarm of the first, slip factor and alarm of the other two. *)


(** The loop of [plot_acceleration_sweep]: for each acceleration, set it,
    step, read the slip factor and append it; [time] advances by the step
    size. *)

Fixpoint sweep_loop (accelerations : list R) (time : R) (slip_factors : list R)
  : M (list R) :=
  match accelerations with
  | [] => ret slip_factors
  | acc :: rest =>
      assign (set_angular_acceleration acc) ;;
      do_step time 0.01 ;;
      slip <- read slip_factor ;;
      sweep_loop rest (time + 0.01) (slip_factors ++ [slip])
  end.

(** [plot_acceleration_sweep], up to the plot: it returns the list
    [slip_factors] that is plotted against [accelerations].  The script
    takes [accelerations] from [np.linspace(0, 50, 100)]; here the list is
    an argument. *)

Definition plot_acceleration_sweep (accelerations : list R) : M (list R) :=
  setup_experiment 0.0 None None ;;
  enter_initialization_mode ;;
  exit_initialization_mode ;;
  let vacuum_pressure := 53000.0 in
  let wafer_type := 1%Z in
  assign (set_wafer_type wafer_type) ;;
  assign (set_vacuum_pressure vacuum_pressure) ;;
  slip_factors <- sweep_loop accelerations 0.0 [] ;;
  terminate ;;
  ret slip_factors.

(** ** Calls that leave the instance alone *)

Definition is_lifecycle_noop (c : call) : bool :=
  match c with
  | EnterInitializationMode | ExitInitializationMode | Terminate => true
  | _ => false
  end.

(** Two instances with the same inputs and parameters. *)

Definition same_inputs_and_parameters (s s' : WaferSlipDynamics) : Prop :=
  angular_acceleration s' = angular_acceleration s /\
  vacuum_pressure s' = vacuum_pressure s /\
  wafer_type s' = wafer_type s /\
  mu_friction s' = mu_friction s /\
  safety_margin s' = safety_margin s.

(** * Properties *)

(** ** The comparison *)

Lemma Rgtb_true (x y : R) : x > y -> (x >? y) = true.
Proof. intros H. unfold Rgtb. destruct (Rgt_dec x y); [reflexivity | contradiction]. Qed.

Lemma Rgtb_false (x y : R) : ~ x > y -> (x >? y) = false.
Proof. intros H. unfold Rgtb. destruct (Rgt_dec x y); [contradiction | reflexivity]. Qed.

Lemma Rgtb_spec (x y : R) : (x >? y) = true <-> x > y.
Proof.
  unfold Rgtb. destruct (Rgt_dec x y) as [H | H]; split; intros H'.
  - exact H.
  - reflexivity.
  - discriminate H'.
  - contradiction.
Qed.

(** ** Division *)

Lemma pydiv_nonzero (x y : R) (s : WaferSlipDynamics) :
  y <> 0 -> pydiv x y s = (Return (x / y), s).
Proof.
  intros Hy. unfold pydiv. destruct (Req_dec_T y 0) as [E | _].
  - contradiction.
  - reflexivity.
Qed.

Lemma pydiv_zero (x : R) (s : WaferSlipDynamics) :
  pydiv x 0 s = (Raise ZeroDivisionError, s).
Proof.
  unfold pydiv. destruct (Req_dec_T 0 0) as [_ | N].
  - reflexivity.
  - exfalso. apply N. reflexivity.
Qed.

(** ** The resolver *)

Lemma resolved_radius_cases (ty : Z) :
  resolved_radius ty = 0.150 \/ resolved_radius ty = 0.100 \/ resolved_radius ty = 0.075.
Proof.
  unfold resolved_radius.
  destruct (ty =? 1)%Z; [now left |].
  destruct (ty =? 2)%Z; [now right; left |].
  destruct (ty =? 3)%Z; [now right; right | now left].
Qed.

Lemma resolved_radius_pos (ty : Z) : 0 < resolved_radius ty.
Proof. destruct (resolved_radius_cases ty) as [E | [E | E]]; rewrite E; lra. Qed.

Lemma disc_mass_pos (r : R) : 0 < r -> 0 < disc_mass r.
Proof.
  intros Hr. unfold disc_mass. pose proof PI_RGT_0 as Hpi.
  assert (0 < r ^ 2) by (simpl; nra).
  assert (0 < PI * r ^ 2) by (apply Rmult_lt_0_compat; lra).
  nra.
Qed.

Lemma resolved_mass_pos (ty : Z) : 0 < resolved_mass ty.
Proof. apply disc_mass_pos, resolved_radius_pos. Qed.

Lemma resolved_area_pos : 0 < resolved_area.
Proof. unfold resolved_area. pose proof PI_RGT_0. nra. Qed.

Lemma resolved_product_pos (ty : Z) : 0 < resolved_mass ty * resolved_radius ty.
Proof. apply Rmult_lt_0_compat; [apply resolved_mass_pos | apply resolved_radius_pos]. Qed.

Lemma update_wafer_properties_eq (s : WaferSlipDynamics) :
  _update_wafer_properties s = (Return tt, resolved s).
Proof.
  unfold _update_wafer_properties, resolved, resolved_mass, resolved_radius,
    resolved_area, disc_mass, bind, assign, read; simpl.
  destruct (wafer_type s =? 1)%Z; [reflexivity |].
  destruct (wafer_type s =? 2)%Z; [reflexivity |].
  destruct (wafer_type s =? 3)%Z; reflexivity.
Qed.

(** ** The step in closed form *)

Lemma friction_guard_nonzero (s : WaferSlipDynamics) :
  friction_of s > 0.001 -> friction_of s <> 0.
Proof. intros H. lra. Qed.

Lemma do_step_eq (t h : R) (s : WaferSlipDynamics) :
  do_step t h s = (Return true, stepped s).
Proof.
  unfold do_step.
  unfold bind at 1. rewrite update_wafer_properties_eq.
  unfold bind, read, assign, ret; simpl.
  fold resolved_area. fold (friction_of s). fold (inertial_of s).
  pose proof (resolved_mass_pos (wafer_type s)) as Hm.
  pose proof (resolved_radius_pos (wafer_type s)) as Hr.
  pose proof (resolved_product_pos (wafer_type s)) as Hmr.
  unfold stepped, slip_of, max_safe_of.
  unfold Rgtb at 1.
  destruct (Rgt_dec (friction_of s) 0.001) as [Hf | Hf].
  - rewrite pydiv_nonzero by (apply friction_guard_nonzero; exact Hf). simpl.
    rewrite (Rgtb_true _ 0 Hm), (Rgtb_true _ 0 Hr). simpl.
    rewrite pydiv_nonzero by lra. reflexivity.
  - simpl.
    rewrite (Rgtb_true _ 0 Hm), (Rgtb_true _ 0 Hr). simpl.
    rewrite pydiv_nonzero by lra. reflexivity.
Qed.

Lemma stepped_slip_factor (s : WaferSlipDynamics) : slip_factor (stepped s) = slip_of s.
Proof. reflexivity. Qed.

Lemma stepped_max_safe (s : WaferSlipDynamics) :
  max_safe_acceleration (stepped s) = max_safe_of s.
Proof. reflexivity. Qed.

Lemma friction_of_nonneg (s : WaferSlipDynamics) : 0 <= mu_friction s -> 0 <= friction_of s.
Proof.
  intros Hmu. unfold friction_of.
  pose proof (Rabs_pos (vacuum_pressure s)) as Hp.
  pose proof resolved_area_pos as Ha.
  apply Rmult_le_pos; [exact Hmu |].
  apply Rmult_le_pos; lra.
Qed.

Lemma inertial_of_nonneg (s : WaferSlipDynamics) : 0 <= inertial_of s.
Proof.
  unfold inertial_of.
  pose proof (resolved_product_pos (wafer_type s)) as Hmr.
  pose proof (Rabs_pos (angular_acceleration s)) as Ha.
  apply Rmult_le_pos; lra.
Qed.

(** The step is a fixed point on its own result: nothing it reads is
    changed by what it writes. *)

Lemma stepped_idem (s : WaferSlipDynamics) : stepped (stepped s) = stepped s.
Proof. reflexivity. Qed.

(** ** Sequences of calls never raise *)

Lemma exec_returns (c : call) (s : WaferSlipDynamics) :
  exists b s', exec c s = (Return b, s').
Proof.
  destruct c; simpl;
    try (eexists; eexists; reflexivity).
  exists true, (stepped s). apply do_step_eq.
Qed.

Lemma run_returns (cs : list call) :
  forall s, exists s', run cs s = (Return tt, s').
Proof.
  induction cs as [| c cs IH]; intros s.
  - exists s. reflexivity.
  - destruct (exec_returns c s) as (b & s1 & E).
    destruct (IH s1) as (s2 & E2).
    exists s2. simpl. unfold bind. rewrite E. exact E2.
Qed.

(** ** Bounds on [PI] for concrete instances *)

Lemma PI_gt_3 : 3 < PI.
Proof. pose proof PI2_3_2. lra. Qed.

Lemma Rdiv_eq_intro (x y c : R) : y <> 0 -> x = c * y -> x / y = c.
Proof. intros Hy E. rewrite E. field. exact Hy. Qed.

Lemma Rdiv_le_intro (x y c : R) : 0 < y -> x <= c * y -> x / y <= c.
Proof.
  intros Hy Hle. apply Rmult_le_reg_r with (r := y); [exact Hy |].
  unfold Rdiv. rewrite Rmult_assoc, Rinv_l by lra. lra.
Qed.

(** ** The scenarios of FMU/test_fmu.py on a 300mm wafer *)

Lemma slip_of_300mm (a p : R) :
  0 <= a -> 1 <= p ->
  slip_of (scenario a p 1) = (0.003931875 * a) / (0.00054 * p).
Proof.
  intros Ha Hp. pose proof PI_gt_3 as Hpi.
  unfold slip_of, friction_of, inertial_of; simpl.
  rewrite (Rabs_right a) by lra. rewrite (Rabs_right p) by lra.
  unfold resolved_area, resolved_mass, resolved_radius, disc_mass; simpl.
  destruct (Rgt_dec (0.6 * (p * (PI * (0.030 * (0.030 * 1))))) 0.001) as [H | H].
  - apply Rdiv_eq_intro; [nra |].
    unfold Rdiv. field_simplify_eq; lra.
  - exfalso. apply H. nra.
Qed.

Example scenario_safe_operation :
  exists s',
    do_step 0 0.1 (scenario 5 53000 1) = (Return true, s') /\
    0.00068 < slip_factor s' < 0.00069 /\
    is_slipping s' = false.
Proof.
  exists (stepped (scenario 5 53000 1)).
  split; [apply do_step_eq |].
  assert (E : slip_of (scenario 5 53000 1) = 0.019659375 / 28.62).
  { rewrite slip_of_300mm by lra. apply Rdiv_eq_intro; lra. }
  assert (B : 0.00068 < 0.019659375 / 28.62 < 0.00069).
  { split.
    - apply Rmult_lt_reg_r with (r := 28.62); [lra |].
      unfold Rdiv. rewrite Rmult_assoc, Rinv_l by lra. lra.
    - apply Rmult_lt_reg_r with (r := 28.62); [lra |].
      unfold Rdiv. rewrite Rmult_assoc, Rinv_l by lra. lra. }
  split.
  - rewrite stepped_slip_factor, E. exact B.
  - simpl. rewrite E. apply Rgtb_false. lra.
Qed.

Example scenario_vacuum_loss :
  exists s',
    do_step 0.2 0.1 (scenario 5 10 1) = (Return true, s') /\
    slip_factor s' = 3.640625 /\
    is_slipping s' = true.
Proof.
  exists (stepped (scenario 5 10 1)).
  split; [apply do_step_eq |].
  assert (E : slip_of (scenario 5 10 1) = 3.640625).
  { rewrite slip_of_300mm by lra. apply Rdiv_eq_intro; lra. }
  split.
  - rewrite stepped_slip_factor. exact E.
  - simpl. rewrite E. apply Rgtb_true. lra.
Qed.

(** * The claims *)

(** C1, as stated, fails: on a fresh instance, on which neither
    [setup_experiment] nor [exit_initialization_mode] was called (the
    specification's phase is still Instantiated), [do_step] raises nothing,
    returns [True] and overwrites the outputs: [slip_factor] goes from 0.0
    to the sentinel 999.0 and [is_slipping] from [False] to [True]. *)
Lemma C1_step_before_initialization_computes :
  spec_phase Instantiated [] = Some Instantiated /\
  slip_factor __init__ = 0.0 /\
  is_slipping __init__ = false /\
  exists s',
    do_step 0 0.1 __init__ = (Return true, s') /\
    slip_factor s' = 999.0 /\
    is_slipping s' = true.
Proof.
  split; [reflexivity |].
  split; [reflexivity |].
  split; [reflexivity |].
  exists (stepped __init__).
  split; [apply do_step_eq |].
  assert (Hs : slip_of __init__ = 999.0).
  { unfold slip_of. destruct (Rgt_dec (friction_of __init__) 0.001) as [H | H].
    - exfalso. unfold friction_of in H. simpl in H.
      rewrite Rabs_right in H by lra. lra.
    - reflexivity. }
  split.
  - rewrite stepped_slip_factor. exact Hs.
  - simpl. rewrite Hs. apply Rgtb_true. lra.
Qed.

(** C1, amended: the engine keeps no lifecycle phase and [do_step] checks
    none.  [enter_initialization_mode], [exit_initialization_mode] and
    [terminate] return [True] and leave the instance as it is; and after
    any sequence of calls whatever, in any order, [do_step] raises nothing,
    returns [True] and writes the outputs computed from the current inputs. *)
Theorem C1_step_has_no_lifecycle_guard (cs : list call) (s : WaferSlipDynamics) (t h : R) :
  enter_initialization_mode s = (Return true, s) /\
  exit_initialization_mode s = (Return true, s) /\
  terminate s = (Return true, s) /\
  exists s1 s2,
    run cs s = (Return tt, s1) /\
    do_step t h s1 = (Return true, s2) /\
    slip_factor s2 = slip_of s1 /\
    max_safe_acceleration s2 = max_safe_of s1 /\
    is_slipping s2 = (slip_of s1 >? safety_margin s1).
Proof.
  repeat (split; [reflexivity |]).
  destruct (run_returns cs s) as (s1 & E1).
  exists s1, (stepped s1).
  split; [exact E1 |].
  split; [apply do_step_eq |].
  repeat split.
Qed.

(** C2: a step returns [True] and leaves exactly these outputs, where
    mass, radius and chuck area are the ones the resolver derives from the
    current [wafer_type]: [slip_factor] is
    [(mass * radius * |a|) / (mu * |p| * area)] when [mu * |p| * area > 1e-3]
    and 999.0 otherwise; [max_safe_acceleration] is
    [(mu * |p| * area) / (mass * radius)] when mass and radius are both
    positive and 0.0 otherwise; [is_slipping] is [slip_factor > safety_margin]. *)
Theorem C2_step_outputs (s : WaferSlipDynamics) (t h : R) :
  exists r s',
    _update_wafer_properties s = (Return tt, r) /\
    do_step t h s = (Return true, s') /\
    wafer_mass s' = wafer_mass r /\
    wafer_radius s' = wafer_radius r /\
    chuck_area s' = chuck_area r /\
    slip_factor s' =
      (if Rgt_dec (mu_friction s * Rabs (vacuum_pressure s) * chuck_area r) 1e-3
       then (wafer_mass r * wafer_radius r * Rabs (angular_acceleration s))
            / (mu_friction s * Rabs (vacuum_pressure s) * chuck_area r)
       else 999.0) /\
    max_safe_acceleration s' =
      (if Rgt_dec (wafer_mass r) 0
       then if Rgt_dec (wafer_radius r) 0
            then (mu_friction s * Rabs (vacuum_pressure s) * chuck_area r)
                 / (wafer_mass r * wafer_radius r)
            else 0.0
       else 0.0) /\
    is_slipping s' = (slip_factor s' >? safety_margin s).
Proof.
  exists (resolved s), (stepped s).
  split; [apply update_wafer_properties_eq |].
  split; [apply do_step_eq |].
  repeat (split; [reflexivity |]).
  assert (Hf : mu_friction s * Rabs (vacuum_pressure s) * chuck_area (resolved s)
               = friction_of s).
  { unfold friction_of. simpl. fold resolved_area. ring. }
  rewrite Hf.
  split; [| split].
  - rewrite stepped_slip_factor. unfold slip_of.
    destruct (Rgt_dec (friction_of s) 0.001) as [H | H];
      destruct (Rgt_dec (friction_of s) 1e-3) as [H' | H'];
      try reflexivity; exfalso; lra.
  - rewrite stepped_max_safe. unfold max_safe_of. simpl.
    pose proof (resolved_mass_pos (wafer_type s)) as Hm.
    pose proof (resolved_radius_pos (wafer_type s)) as Hr.
    destruct (Rgt_dec (resolved_mass (wafer_type s)) 0) as [_ | N]; [| exfalso; lra].
    destruct (Rgt_dec (resolved_radius (wafer_type s)) 0) as [_ | N]; [| exfalso; lra].
    reflexivity.
  - reflexivity.
Qed.

(** C3, as stated, fails: on a 300mm wafer with the default parameters and
    angular acceleration 1000, raising the pressure from 0.1 Pa to 1 Pa
    takes the friction force across the 1e-3 threshold, and [slip_factor]
    goes UP from the sentinel 999.0 to 7281.25. *)
Lemma C3_sentinel_breaks_pressure_monotonicity :
  0 < 0.1 /\ 0.1 <= 1 /\
  exists s1 s2,
    do_step 0 0.1 (set_vacuum_pressure 0.1 (scenario 1000 0 1)) = (Return true, s1) /\
    do_step 0 0.1 (set_vacuum_pressure 1 (scenario 1000 0 1)) = (Return true, s2) /\
    slip_factor s1 = 999.0 /\
    slip_factor s2 = 7281.25 /\
    ~ slip_factor s2 <= slip_factor s1.
Proof.
  pose proof PI_gt_3 as Hlo. pose proof PI_4 as Hhi.
  split; [lra |]. split; [lra |].
  eexists; eexists.
  split; [apply do_step_eq |].
  split; [apply do_step_eq |].
  rewrite !stepped_slip_factor.
  assert (H1 : slip_of (set_vacuum_pressure 0.1 (scenario 1000 0 1)) = 999.0).
  { unfold slip_of, friction_of; simpl. rewrite Rabs_right by lra.
    unfold resolved_area.
    destruct (Rgt_dec (0.6 * (0.1 * (PI * 0.030 ^ 2))) 0.001) as [H | H];
      [exfalso; lra | reflexivity]. }
  assert (H2 : slip_of (set_vacuum_pressure 1 (scenario 1000 0 1)) = 7281.25).
  { unfold slip_of, friction_of, inertial_of; simpl.
    rewrite !Rabs_right by lra.
    unfold resolved_area, resolved_mass, resolved_radius, disc_mass; simpl.
    destruct (Rgt_dec (0.6 * (1 * (PI * (0.030 * (0.030 * 1))))) 0.001) as [H | H];
      [| exfalso; lra].
    apply Rdiv_eq_intro; lra. }
  rewrite H1, H2.
  split; [reflexivity |]. split; [reflexivity |]. lra.
Qed.

(** C3, amended: for pressures [0 < p1 <= p2], the [slip_factor] computed
    with [p2] is at most the one computed with [p1] whenever the friction
    force at [p1] exceeds the 1e-3 threshold, or the one at [p2] does not
    (both results are then the sentinel), or the quotient at [p2] is itself
    at most the sentinel 999.0. *)
Theorem C3_slip_factor_antitone_in_pressure
    (s : WaferSlipDynamics) (p1 p2 t h : R) :
  0 < p1 -> p1 <= p2 ->
  (friction_of (set_vacuum_pressure p1 s) > 0.001 \/
   ~ friction_of (set_vacuum_pressure p2 s) > 0.001 \/
   inertial_of s <= 999.0 * friction_of (set_vacuum_pressure p2 s)) ->
  exists s1 s2,
    do_step t h (set_vacuum_pressure p1 s) = (Return true, s1) /\
    do_step t h (set_vacuum_pressure p2 s) = (Return true, s2) /\
    slip_factor s2 <= slip_factor s1.
Proof.
  intros Hp1 Hle Hcase.
  exists (stepped (set_vacuum_pressure p1 s)), (stepped (set_vacuum_pressure p2 s)).
  split; [apply do_step_eq |].
  split; [apply do_step_eq |].
  rewrite !stepped_slip_factor.
  pose proof (inertial_of_nonneg s) as Hi.
  unfold slip_of, friction_of, inertial_of in *; simpl in *.
  pose proof resolved_area_pos as Ha.
  rewrite (Rabs_right p1) in * by lra.
  rewrite (Rabs_right p2) in * by lra.
  set (mu := mu_friction s) in *.
  set (I := resolved_mass (wafer_type s) * resolved_radius (wafer_type s)
            * Rabs (angular_acceleration s)) in *.
  assert (Hpa : 0 < p1 * resolved_area) by (apply Rmult_lt_0_compat; lra).
  assert (Hpp : p1 * resolved_area <= p2 * resolved_area) by nra.
  destruct (Rgt_dec (mu * (p1 * resolved_area)) 0.001) as [H1 | H1];
    destruct (Rgt_dec (mu * (p2 * resolved_area)) 0.001) as [H2 | H2].
  - (* both above the threshold *)
    assert (Hmu : 0 < mu) by nra.
    assert (Hff : mu * (p1 * resolved_area) <= mu * (p2 * resolved_area)) by nra.
    unfold Rdiv. apply Rmult_le_compat_l; [exact Hi |].
    apply Rinv_le_contravar; lra.
  - (* the friction force cannot fall as the pressure rises *)
    exfalso. assert (Hmu : 0 < mu) by nra. nra.
  - (* across the threshold: only the third side condition is possible *)
    destruct Hcase as [Hc | [Hc | Hc]].
    + exfalso. apply H1. exact Hc.
    + exfalso. apply Hc. exact H2.
    + apply Rdiv_le_intro; [lra | exact Hc].
  - lra.
Qed.

Lemma C3_slip_factor_antitone_in_pressure_witness :
  0 < 53000 /\ 53000 <= 60000 /\
  exists s1 s2,
    do_step 0 0.1 (set_vacuum_pressure 53000 (scenario 5 0 1)) = (Return true, s1) /\
    do_step 0 0.1 (set_vacuum_pressure 60000 (scenario 5 0 1)) = (Return true, s2) /\
    slip_factor s2 <= slip_factor s1.
Proof.
  split; [lra |]. split; [lra |].
  apply (C3_slip_factor_antitone_in_pressure (scenario 5 0 1) 53000 60000 0 0.1).
  - lra.
  - lra.
  - left. unfold friction_of, resolved_area. simpl.
    rewrite Rabs_right by lra. pose proof PI_gt_3. lra.
Defined.

(** C4: for a [wafer_type] other than 1, 2 and 3 the resolver raises
    nothing and derives the same mass and radius as for [wafer_type = 1],
    the radius being 0.150; it writes [wafer_mass], [wafer_radius] and
    [chuck_area] and nothing else, and running it again changes nothing. *)
Theorem C4_unrecognized_wafer_type_resolves_as_300mm (s : WaferSlipDynamics) :
  wafer_type s <> 1%Z -> wafer_type s <> 2%Z -> wafer_type s <> 3%Z ->
  exists s' s1,
    _update_wafer_properties s = (Return tt, s') /\
    _update_wafer_properties (set_wafer_type 1 s) = (Return tt, s1) /\
    wafer_mass s' = wafer_mass s1 /\
    wafer_radius s' = wafer_radius s1 /\
    wafer_radius s' = 0.150 /\
    same_but_derived s s' /\
    _update_wafer_properties s' = (Return tt, s').
Proof.
  intros N1 N2 N3.
  exists (resolved s), (resolved (set_wafer_type 1 s)).
  split; [apply update_wafer_properties_eq |].
  split; [apply update_wafer_properties_eq |].
  assert (Hr : resolved_radius (wafer_type s) = 0.150).
  { unfold resolved_radius.
    apply Z.eqb_neq in N1, N2, N3. rewrite N1, N2, N3. reflexivity. }
  split; [simpl; unfold resolved_mass; rewrite Hr; reflexivity |].
  split; [simpl; rewrite Hr; reflexivity |].
  split; [simpl; exact Hr |].
  split; [repeat split |].
  rewrite update_wafer_properties_eq. reflexivity.
Qed.

Lemma C4_unrecognized_wafer_type_resolves_as_300mm_witness :
  exists s' s1,
    _update_wafer_properties (scenario 5 53000 7) = (Return tt, s') /\
    _update_wafer_properties (set_wafer_type 1 (scenario 5 53000 7)) = (Return tt, s1) /\
    wafer_mass s' = wafer_mass s1 /\
    wafer_radius s' = wafer_radius s1 /\
    wafer_radius s' = 0.150 /\
    same_but_derived (scenario 5 53000 7) s' /\
    _update_wafer_properties s' = (Return tt, s').
Proof.
  apply (C4_unrecognized_wafer_type_resolves_as_300mm (scenario 5 53000 7));
    simpl; discriminate.
Defined.

(** C5: a step is memoryless.  A second step on the result of a first one
    returns [True] and leaves the instance, outputs included, exactly as the
    first did; and the result of a step is the same whatever [current_time]
    and [step_size] it is given. *)
Theorem C5_step_is_memoryless (s : WaferSlipDynamics) (t1 h1 t2 h2 : R) :
  exists s1,
    do_step t1 h1 s = (Return true, s1) /\
    do_step t2 h2 s1 = (Return true, s1) /\
    do_step t2 h2 s = (Return true, s1).
Proof.
  exists (stepped s).
  split; [apply do_step_eq |].
  split; [| apply do_step_eq].
  rewrite do_step_eq. rewrite stepped_idem. reflexivity.
Qed.

(** C6: with the pressure, the wafer type and the parameters fixed,
    [slip_factor] does not decrease as [|angular_acceleration|] grows. *)
Theorem C6_slip_factor_monotone_in_acceleration
    (s : WaferSlipDynamics) (a1 a2 t h : R) :
  Rabs a1 <= Rabs a2 ->
  exists s1 s2,
    do_step t h (set_angular_acceleration a1 s) = (Return true, s1) /\
    do_step t h (set_angular_acceleration a2 s) = (Return true, s2) /\
    slip_factor s1 <= slip_factor s2.
Proof.
  intros Hle.
  exists (stepped (set_angular_acceleration a1 s)),
         (stepped (set_angular_acceleration a2 s)).
  split; [apply do_step_eq |].
  split; [apply do_step_eq |].
  rewrite !stepped_slip_factor.
  unfold slip_of, friction_of, inertial_of; simpl.
  pose proof (resolved_product_pos (wafer_type s)) as Hmr.
  set (f := mu_friction s * (Rabs (vacuum_pressure s) * resolved_area)).
  destruct (Rgt_dec f 0.001) as [Hf | Hf].
  - unfold Rdiv. apply Rmult_le_compat_r.
    + apply Rlt_le, Rinv_0_lt_compat. lra.
    + apply Rmult_le_compat_l; lra.
  - lra.
Qed.

Lemma C6_slip_factor_monotone_in_acceleration_witness :
  Rabs 5 <= Rabs (-150000) /\
  exists s1 s2,
    do_step 0 0.1 (set_angular_acceleration 5 (scenario 0 53000 1)) = (Return true, s1) /\
    do_step 0 0.1 (set_angular_acceleration (-150000) (scenario 0 53000 1)) = (Return true, s2) /\
    slip_factor s1 <= slip_factor s2.
Proof.
  assert (H : Rabs 5 <= Rabs (-150000)).
  { rewrite Rabs_right by lra. rewrite Rabs_left by lra. lra. }
  split; [exact H |].
  apply (C6_slip_factor_monotone_in_acceleration (scenario 0 53000 1) 5 (-150000) 0 0.1).
  exact H.
Defined.

(** C7: [setup_experiment] and [reset] return [True], set [slip_factor] to
    0.0 and [is_slipping] to [False], and leave every other attribute
    (inputs, parameters, [max_safe_acceleration], derived mass, radius and
    chuck area) as it was. *)
Theorem C7_setup_and_reset_clear_only_slip_outputs
    (s : WaferSlipDynamics) (start_time : R) (stop_time tolerance : option R) :
  exists s',
    setup_experiment start_time stop_time tolerance s = (Return true, s') /\
    reset s = (Return true, s') /\
    slip_factor s' = 0.0 /\
    is_slipping s' = false /\
    same_but_slip s s'.
Proof.
  exists (set_is_slipping false (set_slip_factor 0.0 s)).
  repeat split.
Qed.

(** C8: when [mu_friction >= 0], a step leaves [slip_factor >= 0] and
    [max_safe_acceleration >= 0], whatever the inputs are, negative
    pressures and accelerations included. *)
Theorem C8_outputs_nonnegative (s : WaferSlipDynamics) (t h : R) :
  0 <= mu_friction s ->
  exists s',
    do_step t h s = (Return true, s') /\
    0 <= slip_factor s' /\
    0 <= max_safe_acceleration s'.
Proof.
  intros Hmu.
  exists (stepped s).
  split; [apply do_step_eq |].
  rewrite stepped_slip_factor, stepped_max_safe.
  pose proof (friction_of_nonneg s Hmu) as Hf.
  pose proof (inertial_of_nonneg s) as Hi.
  pose proof (resolved_product_pos (wafer_type s)) as Hmr.
  split.
  - unfold slip_of. destruct (Rgt_dec (friction_of s) 0.001) as [H | H].
    + unfold Rdiv. apply Rmult_le_pos; [exact Hi |].
      apply Rlt_le, Rinv_0_lt_compat. lra.
    + lra.
  - unfold max_safe_of, Rdiv. apply Rmult_le_pos; [exact Hf |].
    apply Rlt_le, Rinv_0_lt_compat. exact Hmr.
Qed.

Lemma C8_outputs_nonnegative_witness :
  exists s',
    do_step 0 0.1 (scenario (-5) (-53000) 2) = (Return true, s') /\
    0 <= slip_factor s' /\
    0 <= max_safe_acceleration s'.
Proof.
  apply (C8_outputs_nonnegative (scenario (-5) (-53000) 2) 0 0.1).
  simpl. lra.
Defined.

(** C9: a step never raises and always returns [True]: the divisor of
    [slip_factor] is above 0.001 when the division is reached, and the
    divisor of [max_safe_acceleration] is a product of two positive
    numbers. *)
Theorem C9_step_never_raises (s : WaferSlipDynamics) (t h : R) :
  exists s', do_step t h s = (Return true, s').
Proof. exists (stepped s). apply do_step_eq. Qed.

(** C10: the resolver always leaves [wafer_mass > 0] and
    [wafer_radius > 0]; so the guard of [max_safe_acceleration] in a step
    evaluates to [True], and after the step [max_safe_acceleration] is
    the friction force divided by [wafer_mass * wafer_radius]. *)
Theorem C10_mass_and_radius_positive (s : WaferSlipDynamics) (t h : R) :
  exists r s',
    _update_wafer_properties s = (Return tt, r) /\
    0 < wafer_mass r /\
    0 < wafer_radius r /\
    ((wafer_mass r >? 0) && (wafer_radius r >? 0) = true) /\
    do_step t h s = (Return true, s') /\
    wafer_mass s' = wafer_mass r /\
    wafer_radius s' = wafer_radius r /\
    max_safe_acceleration s' =
      (mu_friction s * (Rabs (vacuum_pressure s) * chuck_area s'))
      / (wafer_mass s' * wafer_radius s').
Proof.
  pose proof (resolved_mass_pos (wafer_type s)) as Hm.
  pose proof (resolved_radius_pos (wafer_type s)) as Hr.
  exists (resolved s), (stepped s).
  split; [apply update_wafer_properties_eq |].
  split; [exact Hm |].
  split; [exact Hr |].
  split.
  - simpl. rewrite (Rgtb_true _ 0 Hm), (Rgtb_true _ 0 Hr). reflexivity.
  - split; [apply do_step_eq |]. repeat split.
Qed.

(** * Further properties of the model *)

(** ** Shared facts *)

Lemma stepped_same_inputs (s s' : WaferSlipDynamics) :
  same_inputs_and_parameters s s' -> stepped s' = stepped s.
Proof.
  destruct s, s'. unfold same_inputs_and_parameters; simpl.
  intros (Ea & Ep & Et & Em & Es). subst. reflexivity.
Qed.

Lemma bind_do_step {A} (t h : R) (k : bool -> M A) (s : WaferSlipDynamics) :
  bind (do_step t h) k s = k true (stepped s).
Proof. unfold bind. rewrite do_step_eq. reflexivity. Qed.

Lemma slip_of_above (s : WaferSlipDynamics) :
  friction_of s > 0.001 -> slip_of s = inertial_of s / friction_of s.
Proof.
  intros H. unfold slip_of.
  destruct (Rgt_dec (friction_of s) 0.001); [reflexivity | contradiction].
Qed.

Lemma slip_of_below (s : WaferSlipDynamics) :
  ~ friction_of s > 0.001 -> slip_of s = 999.0.
Proof.
  intros H. unfold slip_of.
  destruct (Rgt_dec (friction_of s) 0.001); [contradiction | reflexivity].
Qed.

(** ** What a step reads and writes *)

(** X1: a step writes the outputs and the derived attributes only; the
    three inputs and the two parameters are after the step what they were
    before it. *)
Theorem X1_step_keeps_inputs_and_parameters (s : WaferSlipDynamics) (t h : R) :
  exists s',
    do_step t h s = (Return true, s') /\
    same_inputs_and_parameters s s'.
Proof.
  exists (stepped s). split; [apply do_step_eq |]. repeat split.
Qed.

(** X2: the result of a step is determined by the inputs and parameters
    alone: two instances that agree on them end, after a step, in the very
    same instance, whatever their outputs and derived attributes were. *)
Theorem X2_step_depends_only_on_inputs_and_parameters
    (s s' : WaferSlipDynamics) (t h t' h' : R) :
  same_inputs_and_parameters s s' ->
  do_step t' h' s' = do_step t h s.
Proof.
  intros H. rewrite !do_step_eq. rewrite (stepped_same_inputs s s' H). reflexivity.
Qed.

Lemma X2_step_depends_only_on_inputs_and_parameters_witness :
  do_step 1 0.5
    (set_slip_factor 7 (set_max_safe_acceleration 3
       (set_wafer_mass 0.125 (set_chuck_area 0.0707 (scenario 5 53000 2)))))
  = do_step 0 0.1 (scenario 5 53000 2).
Proof.
  apply (X2_step_depends_only_on_inputs_and_parameters (scenario 5 53000 2)).
  repeat split.
Defined.

(** X3: only the magnitudes of the acceleration and of the pressure count:
    a step with both signs flipped leaves the same three outputs. *)
Theorem X3_step_ignores_signs (s : WaferSlipDynamics) (t h : R) :
  exists s1 s2,
    do_step t h s = (Return true, s1) /\
    do_step t h (set_angular_acceleration (- angular_acceleration s)
                   (set_vacuum_pressure (- vacuum_pressure s) s))
      = (Return true, s2) /\
    slip_factor s2 = slip_factor s1 /\
    max_safe_acceleration s2 = max_safe_acceleration s1 /\
    is_slipping s2 = is_slipping s1.
Proof.
  eexists; eexists.
  split; [apply do_step_eq |].
  split; [apply do_step_eq |].
  assert (Es : slip_of (set_angular_acceleration (- angular_acceleration s)
                          (set_vacuum_pressure (- vacuum_pressure s) s)) = slip_of s).
  { unfold slip_of, friction_of, inertial_of; simpl. rewrite !Rabs_Ropp. reflexivity. }
  assert (Em : max_safe_of (set_angular_acceleration (- angular_acceleration s)
                              (set_vacuum_pressure (- vacuum_pressure s) s)) = max_safe_of s).
  { unfold max_safe_of, friction_of; simpl. rewrite !Rabs_Ropp. reflexivity. }
  rewrite !stepped_slip_factor, !stepped_max_safe.
  split; [exact Es |]. split; [exact Em |].
  simpl. rewrite Es. reflexivity.
Qed.

(** ** The sentinel *)

(** X4: with [vacuum_pressure = 0] a step leaves [slip_factor = 999.0] and
    [max_safe_acceleration = 0], for every acceleration (zero included) and
    every friction coefficient; the alarm is raised exactly when
    [safety_margin < 999.0]. *)
Theorem X4_no_vacuum_gives_sentinel (s : WaferSlipDynamics) (t h : R) :
  vacuum_pressure s = 0 ->
  exists s',
    do_step t h s = (Return true, s') /\
    slip_factor s' = 999.0 /\
    max_safe_acceleration s' = 0 /\
    (is_slipping s' = true <-> safety_margin s < 999.0).
Proof.
  intros Hp. exists (stepped s). split; [apply do_step_eq |].
  assert (Hf : friction_of s = 0).
  { unfold friction_of. rewrite Hp, Rabs_R0. ring. }
  assert (Hs : slip_of s = 999.0) by (apply slip_of_below; lra).
  rewrite stepped_slip_factor, stepped_max_safe.
  split; [exact Hs |].
  split.
  - unfold max_safe_of. rewrite Hf. unfold Rdiv. ring.
  - simpl. rewrite Hs. rewrite Rgtb_spec. lra.
Qed.

Lemma X4_no_vacuum_gives_sentinel_witness :
  exists s',
    do_step 0 0.1 (scenario 0 0 3) = (Return true, s') /\
    slip_factor s' = 999.0 /\
    max_safe_acceleration s' = 0 /\
    (is_slipping s' = true <-> safety_margin (scenario 0 0 3) < 999.0).
Proof.
  apply (X4_no_vacuum_gives_sentinel (scenario 0 0 3) 0 0.1). reflexivity.
Defined.

(** X5: a friction coefficient [mu_friction <= 0] is accepted; every step
    then leaves the sentinel [slip_factor = 999.0], whatever the pressure
    and the acceleration, and a [max_safe_acceleration <= 0]. *)
Theorem X5_nonpositive_friction_coefficient (s : WaferSlipDynamics) (t h : R) :
  mu_friction s <= 0 ->
  exists s',
    do_step t h s = (Return true, s') /\
    slip_factor s' = 999.0 /\
    max_safe_acceleration s' <= 0.
Proof.
  intros Hmu. exists (stepped s). split; [apply do_step_eq |].
  pose proof (Rabs_pos (vacuum_pressure s)) as Hp.
  pose proof resolved_area_pos as Ha.
  pose proof (resolved_product_pos (wafer_type s)) as Hmr.
  assert (Hpa : 0 <= Rabs (vacuum_pressure s) * resolved_area)
    by (apply Rmult_le_pos; lra).
  assert (Hf : friction_of s <= 0) by (unfold friction_of; nra).
  rewrite stepped_slip_factor, stepped_max_safe.
  split; [apply slip_of_below; lra |].
  unfold max_safe_of.
  apply Rdiv_le_intro; [exact Hmr | lra].
Qed.

Lemma X5_nonpositive_friction_coefficient_witness :
  exists s',
    do_step 0 0.1 (set_mu_friction (-0.6) (scenario 5 53000 1)) = (Return true, s') /\
    slip_factor s' = 999.0 /\
    max_safe_acceleration s' <= 0.
Proof.
  apply (X5_nonpositive_friction_coefficient
           (set_mu_friction (-0.6) (scenario 5 53000 1)) 0 0.1).
  simpl. lra.
Defined.

(** ** How the outputs relate above the threshold *)











(** ** Wafer types *)

Lemma resolved_product_eq (ty : Z) :
  resolved_mass ty * resolved_radius ty = 1.165 * PI * resolved_radius ty ^ 3.
Proof. unfold resolved_mass, disc_mass. simpl. lra. Qed.

Lemma resolved_product_1 : resolved_mass 1 * resolved_radius 1 = 0.003931875 * PI.
Proof. rewrite resolved_product_eq. unfold resolved_radius; simpl. lra. Qed.

Lemma resolved_product_2 : resolved_mass 2 * resolved_radius 2 = 0.001165 * PI.
Proof. rewrite resolved_product_eq. unfold resolved_radius; simpl. lra. Qed.

Lemma resolved_product_3 : resolved_mass 3 * resolved_radius 3 = 0.000491484375 * PI.
Proof. rewrite resolved_product_eq. unfold resolved_radius; simpl. lra. Qed.

(** X11: with the same inputs and parameters, a larger wafer never has
    the smaller slip factor: the 150mm wafer (type 3) is at most the 200mm
    wafer (type 2), which is at most the 300mm wafer (type 1). *)
Theorem X11_larger_wafer_slips_more (s : WaferSlipDynamics) (t h : R) :
  exists s1 s2 s3,
    do_step t h (set_wafer_type 1 s) = (Return true, s1) /\
    do_step t h (set_wafer_type 2 s) = (Return true, s2) /\
    do_step t h (set_wafer_type 3 s) = (Return true, s3) /\
    slip_factor s3 <= slip_factor s2 <= slip_factor s1.
Proof.
  eexists; eexists; eexists.
  split; [apply do_step_eq |].
  split; [apply do_step_eq |].
  split; [apply do_step_eq |].
  rewrite !stepped_slip_factor.
  unfold slip_of, friction_of, inertial_of; simpl.
  rewrite resolved_product_1, resolved_product_2, resolved_product_3.
  set (f := mu_friction s * (Rabs (vacuum_pressure s) * resolved_area)).
  pose proof (Rabs_pos (angular_acceleration s)) as Ha.
  pose proof PI_RGT_0 as Hpi.
  assert (Hpa : 0 <= PI * Rabs (angular_acceleration s)) by (apply Rmult_le_pos; lra).
  destruct (Rgt_dec f 0.001) as [Hf | Hf]; [| lra].
  assert (Hinv : 0 < / f) by (apply Rinv_0_lt_compat; lra).
  unfold Rdiv. split; apply Rmult_le_compat_r; try lra; nra.
Qed.



(** ** The maximum safe acceleration *)

(** X13: with [mu_friction >= 0], [max_safe_acceleration] does not
    decrease as [|vacuum_pressure|] grows; unlike the slip factor it has
    no threshold and no sentinel. *)
Theorem X13_max_safe_monotone_in_pressure (s : WaferSlipDynamics) (p1 p2 t h : R) :
  0 <= mu_friction s ->
  Rabs p1 <= Rabs p2 ->
  exists s1 s2,
    do_step t h (set_vacuum_pressure p1 s) = (Return true, s1) /\
    do_step t h (set_vacuum_pressure p2 s) = (Return true, s2) /\
    max_safe_acceleration s1 <= max_safe_acceleration s2.
Proof.
  intros Hmu Hle.
  eexists; eexists.
  split; [apply do_step_eq |].
  split; [apply do_step_eq |].
  rewrite !stepped_max_safe.
  unfold max_safe_of, friction_of; simpl.
  pose proof (resolved_product_pos (wafer_type s)) as Hmr.
  pose proof resolved_area_pos as Ha.
  assert (Hinv : 0 < / (resolved_mass (wafer_type s) * resolved_radius (wafer_type s)))
    by (apply Rinv_0_lt_compat; exact Hmr).
  unfold Rdiv. apply Rmult_le_compat_r; [lra |].
  apply Rmult_le_compat_l; [exact Hmu |].
  apply Rmult_le_compat_r; lra.
Qed.

Lemma X13_max_safe_monotone_in_pressure_witness :
  exists s1 s2,
    do_step 0 0.1 (set_vacuum_pressure 0 (scenario 5 53000 1)) = (Return true, s1) /\
    do_step 0 0.1 (set_vacuum_pressure (-10) (scenario 5 53000 1)) = (Return true, s2) /\
    max_safe_acceleration s1 <= max_safe_acceleration s2.
Proof.
  apply (X13_max_safe_monotone_in_pressure (scenario 5 53000 1) 0 (-10) 0 0.1).
  - simpl. lra.
  - rewrite Rabs_R0. apply Rabs_pos.
Defined.

(** ** Lifecycle calls between steps *)

(** X14: [reset] after a step clears [slip_factor] and [is_slipping] but
    keeps the [max_safe_acceleration] the step computed; and a [reset]
    between two steps is invisible to the second one, which ends in the
    same instance as the first. *)
Theorem X14_reset_between_steps (s : WaferSlipDynamics) (t h t' h' : R) :
  exists s1 s2,
    do_step t h s = (Return true, s1) /\
    (do_step t h ;; reset) s = (Return true, s2) /\
    slip_factor s2 = 0 /\
    is_slipping s2 = false /\
    max_safe_acceleration s2 = max_safe_acceleration s1 /\
    (do_step t h ;; reset ;; do_step t' h') s = (Return true, s1).
Proof.
  exists (stepped s), (set_is_slipping false (set_slip_factor 0.0 (stepped s))).
  split; [apply do_step_eq |].
  split; [rewrite bind_do_step; reflexivity |].
  split; [simpl; lra |].
  split; [reflexivity |].
  split; [reflexivity |].
  rewrite bind_do_step.
  unfold reset. unfold bind at 1. unfold bind at 1. unfold bind at 1.
  unfold assign, ret.
  rewrite do_step_eq. reflexivity.
Qed.

Lemma run_cons (c : call) (cs : list call) (s : WaferSlipDynamics) :
  run (c :: cs) s =
  match exec c s with
  | (Return _, s') => run cs s'
  | (Raise e, s') => (Raise e, s')
  end.
Proof. reflexivity. Qed.

(** X15: [enter_initialization_mode], [exit_initialization_mode] and
    [terminate] can be dropped from, or added to, any sequence of calls
    without changing the instance it ends in; in particular a step after
    [terminate] computes as before. *)
Theorem X15_lifecycle_noops_erasable (cs : list call) (s : WaferSlipDynamics) :
  run cs s = run (filter (fun c => negb (is_lifecycle_noop c)) cs) s.
Proof.
  revert s. induction cs as [| c cs IH]; intros s.
  - reflexivity.
  - destruct (is_lifecycle_noop c) eqn:E.
    + simpl filter. rewrite E. simpl negb. cbv iota.
      rewrite run_cons.
      destruct c; try discriminate E; simpl exec;
        unfold enter_initialization_mode, exit_initialization_mode, terminate, ret;
        apply IH.
    + simpl filter. rewrite E. simpl negb. cbv iota.
      rewrite !run_cons.
      destruct (exec c s) as [[b | e] s1]; [apply IH | reflexivity].
Qed.

(** ** The constructor *)

(** X16: the literals [__init__] assigns to [wafer_mass], [wafer_radius]
    and [chuck_area] never survive construction: whatever is assigned
    there, the resolver run at the end of [__init__] leaves the same
    instance, whose mass and chuck area are smaller than the literals
    0.125 and 0.0707 of the source. *)
Theorem X16_init_overwrites_derived_literals :
  (forall m r c : R,
     _update_wafer_properties
       (set_wafer_mass m (set_wafer_radius r (set_chuck_area c defaults)))
     = (Return tt, __init__)) /\
  wafer_mass __init__ = 2330 * (PI * (0.150 ^ 2) * 0.5 * 1e-3) /\
  wafer_mass __init__ < 0.125 /\
  wafer_radius __init__ = 0.150 /\
  chuck_area __init__ = PI * 0.030 ^ 2 /\
  chuck_area __init__ < 0.0707.
Proof.
  pose proof PI_4 as Hpi.
  split.
  - intros m r c. rewrite update_wafer_properties_eq. reflexivity.
  - repeat split; simpl; lra.
Qed.

(** ** The acceleration sweep of FMU/test_fmu.py *)

Lemma bind_assign {A} (f : WaferSlipDynamics -> WaferSlipDynamics) (k : unit -> M A)
    (s : WaferSlipDynamics) :
  bind (assign f) k s = k tt (f s).
Proof. reflexivity. Qed.

Lemma bind_read {A B} (f : WaferSlipDynamics -> A) (k : A -> M B) (s : WaferSlipDynamics) :
  bind (read f) k s = k (f s) s.
Proof. reflexivity. Qed.

Lemma bind_ret {A B} (a : A) (k : A -> M B) (s : WaferSlipDynamics) :
  bind (ret a) k s = k a s.
Proof. reflexivity. Qed.

Lemma sweep_loop_cons (a : R) (rest : list R) (time : R) (out : list R)
    (s : WaferSlipDynamics) :
  sweep_loop (a :: rest) time out s =
  sweep_loop rest (time + 0.01) (out ++ [slip_of (set_angular_acceleration a s)])
    (stepped (set_angular_acceleration a s)).
Proof.
  cbn [sweep_loop].
  rewrite bind_assign, bind_do_step, bind_read. reflexivity.
Qed.

Lemma sweep_loop_eq (accs : list R) :
  forall (time : R) (out : list R) (s : WaferSlipDynamics),
    sweep_loop accs time out s =
    (Return (out ++ map (fun a => slip_of (set_angular_acceleration a s)) accs),
     fold_left (fun s' a => stepped (set_angular_acceleration a s')) accs s).
Proof.
  induction accs as [| a rest IH]; intros time out s.
  - simpl. rewrite app_nil_r. reflexivity.
  - rewrite sweep_loop_cons, IH. cbn [map fold_left].
    rewrite <- app_assoc. reflexivity.
Qed.

Lemma slip_of_monotone (s : WaferSlipDynamics) (a1 a2 : R) :
  Rabs a1 <= Rabs a2 ->
  slip_of (set_angular_acceleration a1 s) <= slip_of (set_angular_acceleration a2 s).
Proof.
  intros Hle. unfold slip_of, friction_of, inertial_of; simpl.
  pose proof (resolved_product_pos (wafer_type s)) as Hmr.
  set (f := mu_friction s * (Rabs (vacuum_pressure s) * resolved_area)).
  destruct (Rgt_dec f 0.001) as [Hf | Hf]; [| lra].
  unfold Rdiv. apply Rmult_le_compat_r.
  - apply Rlt_le, Rinv_0_lt_compat. lra.
  - apply Rmult_le_compat_l; lra.
Qed.

Lemma sorted_slip_of (s : WaferSlipDynamics) (accs : list R) :
  Sorted Rle (map Rabs accs) ->
  Sorted Rle (map (fun a => slip_of (set_angular_acceleration a s)) accs).
Proof.
  induction accs as [| a rest IH]; intros H.
  - constructor.
  - cbn [map] in *. inversion H as [| x l Hs Hh]; subst.
    constructor; [apply IH; exact Hs |].
    destruct rest as [| b rest'].
    + constructor.
    + cbn [map] in *. inversion Hh as [| y l' Hab]; subst.
      constructor. apply slip_of_monotone. exact Hab.
Qed.

(** X17: the sweep loop never raises and returns one slip factor per
    acceleration, in order, appended to the list it was given; each is the
    slip factor a single step on the starting instance would give with
    that acceleration, so the iterations do not influence one another and
    the advancing [time] plays no part. *)
Theorem X17_sweep_loop_pointwise
    (accs : list R) (time : R) (out : list R) (s : WaferSlipDynamics) :
  exists s',
    sweep_loop accs time out s =
    (Return (out ++ map (fun a =>
               slip_factor (snd (do_step 0 0.01 (set_angular_acceleration a s)))) accs),
     s').
Proof.
  eexists. rewrite sweep_loop_eq. f_equal. f_equal. f_equal.
  apply map_ext. intros a. rewrite do_step_eq. reflexivity.
Qed.

(** X18: on any instance, sweeping accelerations of non-decreasing
    magnitude yields a non-decreasing list of slip factors. *)
Theorem X18_sweep_loop_sorted (accs : list R) (time : R) (s : WaferSlipDynamics) :
  Sorted Rle (map Rabs accs) ->
  exists out s',
    sweep_loop accs time [] s = (Return out, s') /\
    length out = length accs /\
    Sorted Rle out.
Proof.
  intros H. eexists; eexists.
  split; [apply sweep_loop_eq |].
  cbn [app]. split; [apply length_map |].
  apply sorted_slip_of. exact H.
Qed.

Lemma X18_sweep_loop_sorted_witness :
  exists out s',
    sweep_loop [0; -25; 50] 0 [] (scenario 0 53000 1) = (Return out, s') /\
    length out = length [0; -25; 50] /\
    Sorted Rle out.
Proof.
  apply (X18_sweep_loop_sorted [0; -25; 50] 0 (scenario 0 53000 1)).
  cbn [map]. repeat constructor; unfold Rabs; repeat destruct Rcase_abs; lra.
Defined.

Lemma bind_setup_experiment {A} (t0 : R) (t1 tol : option R) (k : bool -> M A)
    (s : WaferSlipDynamics) :
  bind (setup_experiment t0 t1 tol) k s
  = k true (set_is_slipping false (set_slip_factor 0.0 s)).
Proof. reflexivity. Qed.

Lemma slip_of_300mm_abs (a p : R) :
  1 <= p ->
  slip_of (scenario a p 1) = (0.003931875 * Rabs a) / (0.00054 * p).
Proof.
  intros Hp. pose proof PI_gt_3 as Hpi. pose proof (Rabs_pos a) as Ha.
  rewrite slip_of_above.
  - unfold friction_of, inertial_of. cbn [scenario wafer_type set_angular_acceleration
      set_vacuum_pressure set_wafer_type angular_acceleration vacuum_pressure mu_friction].
    rewrite resolved_product_1. rewrite (Rabs_right p) by lra.
    unfold resolved_area. simpl.
    apply Rdiv_eq_intro; [nra |].
    unfold Rdiv. field_simplify_eq; lra.
  - unfold friction_of. simpl. rewrite (Rabs_right p) by lra.
    unfold resolved_area. nra.
Qed.


Lemma plot_acceleration_sweep_eq (accs : list R) :
  exists s',
    plot_acceleration_sweep accs __init__ =
    (Return (map (fun a => slip_of (scenario a 53000.0 1)) accs), s').
Proof.
  eexists.
  unfold plot_acceleration_sweep, enter_initialization_mode,
    exit_initialization_mode, terminate.
  rewrite bind_setup_experiment.
  repeat first [rewrite bind_ret | rewrite bind_assign].
  unfold bind. rewrite sweep_loop_eq. cbn [app]. unfold ret. reflexivity.
Qed.


(** X20: for accelerations of magnitude at most 50, the range the script
    sweeps, every slip factor [plot_acceleration_sweep] returns lies between
    0 and 0.007: the curve stays far below the 0.85 safety margin and the
    1.0 threshold drawn on the same plot. *)
Theorem X20_acceleration_sweep_stays_safe (accs : list R) :
  Forall (fun a => Rabs a <= 50) accs ->
  exists out s',
    plot_acceleration_sweep accs __init__ = (Return out, s') /\
    length out = length accs /\
    Forall (fun sf => 0 <= sf <= 0.007) out.
Proof.
  intros H.
  destruct (plot_acceleration_sweep_eq accs) as (s' & E).
  eexists; exists s'. split; [exact E |].
  split; [apply length_map |].
  apply Forall_map. revert H. apply Forall_impl. intros a Ha.
  rewrite slip_of_300mm_abs by lra.
  pose proof (Rabs_pos a) as Hpos.
  split.
  - apply Rmult_le_pos; [lra |]. apply Rlt_le, Rinv_0_lt_compat. lra.
  - apply Rdiv_le_intro; lra.
Qed.

Lemma X20_acceleration_sweep_stays_safe_witness :
  exists out s',
    plot_acceleration_sweep [0; 25; 50] __init__ = (Return out, s') /\
    length out = length [0; 25; 50] /\
    Forall (fun sf => 0 <= sf <= 0.007) out.
Proof.
  apply (X20_acceleration_sweep_stays_safe [0; 25; 50]).
  repeat constructor; unfold Rabs; repeat destruct Rcase_abs; lra.
Defined.

(** ** The three scenarios of [test_slip_dynamics] *)




